(** * ladder.camera: camera modes, settings and the reversed-z projection matrix

    A shallow embedding of [src/ladder/camera/__init__.py].

    - Arithmetic is kept abstract behind the [Arith] and [Trig] interfaces,
      because the source runs the same expressions on whatever scalar type
      the numeric back end is configured with.  The instance on [R] gives
      the exact-arithmetic reading in which the numerical statements are
      settled; the instance on binary64 ([float]) evaluates the pure
      frustum function on concrete inputs.
    - [CameraMode] is a Python [Enum]: each of its three members is one
      object shared by every holder, and the mutators write an attribute of
      that object.  The attributes of the three members form the store
      [Members]; a [CameraSettings] only holds the member (the tag).
    - Calls that may raise are computations of [Py], a state monad over the
      store layered with an outcome that is either a returned value or a
      raised exception.
    - [compute_projection_matrix] is a [@ti.kernel] method: its body is
      traced once for each camera, and the values it reads from Python
      scope stay in the kernel compiled for that camera, the [kernel] field
      of a [Camera]. *)

From Stdlib Require Import ZArith List String Bool.
From Stdlib Require Import Reals Lra Lia.
From Stdlib Require Import Floats.
Import ListNotations.

Set Implicit Arguments.

(** ** Scalars *)

(** The operations the source applies to numbers.  [of_int] is the promotion
    of a Python [int] literal ([2], [0], [-1]) to the scalar type. *)
Class Arith (num : Type) : Type := {
  of_int : Z -> num;
  add : num -> num -> num;
  sub : num -> num -> num;
  mul : num -> num -> num;
  div : num -> num -> num;
  neg : num -> num
}.

(** [math.pi] and [ti.tan]. *)
Class Trig (num : Type) : Type := {
  pi : num;
  tan : num -> num
}.

Declare Scope num_scope.
Delimit Scope num_scope with num.
Infix "+" := add : num_scope.
Infix "-" := sub : num_scope.
Infix "*" := mul : num_scope.
Infix "/" := div : num_scope.
Notation "- x" := (neg x) : num_scope.

#[global] Instance R_Arith : Arith R := {|
  of_int := IZR;
  add := Rplus;
  sub := Rminus;
  mul := Rmult;
  div := Rdiv;
  neg := Ropp
|}.

#[global] Instance R_Trig : Trig R := {|
  pi := PI;
  tan := Rtrigo1.tan
|}.

(** IEEE 754 binary64 arithmetic, the representation of a Python [float].
    It serves to evaluate the frustum function with rounding; the scalar
    type of a run is the one the numeric back end is configured with. *)
#[global] Instance float_Arith : Arith float := {|
  of_int := fun z => SF2Prim (binary_normalize prec emax z 0%Z false);
  add := PrimFloat.add;
  sub := PrimFloat.sub;
  mul := PrimFloat.mul;
  div := PrimFloat.div;
  neg := PrimFloat.opp
|}.

(** ** Matrices *)

(** A matrix is the nested list handed to [ti.Matrix], row index outer. *)
Definition Matrix (num : Type) : Type := list (list num).

(** [M[i][j]], undefined outside the matrix. *)
Definition entry {num : Type} (M : Matrix num) (i j : nat) : option num :=
  match nth_error M i with
  | Some row => nth_error row j
  | None => None
  end.

(** [ti.Matrix.field(4, 4, float, shape=())]: a zero-filled 4x4 slot. *)
Definition Matrix_field_4_4 {num : Type} `{Arith num} : Matrix num :=
  repeat (repeat (of_int 0) 4) 4.

(** ** Frustum to projection matrix *)

Section Frustum.
Context {num : Type} `{Arith num}.
Local Open Scope num_scope.

Definition projection_from_frustum
    (left right bottom top near far : num) : Matrix num :=
  let depth_range := far - near in
  let n2 := of_int 2 * near in
  let mxx := n2 / (right - left) in
  let myy := n2 / (top - bottom) in
  let mzx := (right + left) / (right - left) in
  let mzy := (top + bottom) / (top - bottom) in
  let mzz := (- far) / depth_range in
  let mwz := near * mzz in
  let mzw := of_int (-1) in
  (* use reversed z *)
  [ [mxx; of_int 0; of_int 0; of_int 0];
    [of_int 0; myy; of_int 0; of_int 0];
    [mzx; mzy; (- mzz) - of_int 1; mzw];
    [of_int 0; of_int 0; - mwz; of_int 0] ].

End Frustum.

(** ** Outcomes and the store of enum members *)

(** The exceptions a call in this module can end in. *)
Inductive exn : Type :=
| ValueError (msg : string)
| AttributeError (msg : string).

Inductive outcome (A : Type) : Type :=
| Returned (a : A)
| Raised (e : exn).

Arguments Returned {A} a.
Arguments Raised {A} e.

(** A computation over a store [S]: it ends in an outcome and leaves a
    store behind (a [raise] does not undo earlier writes). *)
Definition Py (S A : Type) : Type := S -> outcome A * S.

Definition ret {S A : Type} (a : A) : Py S A := fun st => (Returned a, st).

Definition raise {S A : Type} (e : exn) : Py S A := fun st => (Raised e, st).

Definition bind {S A B : Type} (m : Py S A) (k : A -> Py S B) : Py S B :=
  fun st =>
    match m st with
    | (Returned a, st') => k a st'
    | (Raised e, st') => (Raised e, st')
    end.

Definition gets {S A : Type} (f : S -> A) : Py S A :=
  fun st => (Returned (f st), st).

Definition modify {S : Type} (f : S -> S) : Py S unit :=
  fun st => (Returned tt, f st).

Declare Scope py_scope.
Delimit Scope py_scope with py.
Notation "x <- m ;; k" := (bind m (fun x => k))
  (at level 61, m at next level, right associativity) : py_scope.
Notation "m ;;; k" := (bind m (fun _ => k))
  (at level 61, right associativity) : py_scope.

(** ** CameraMode *)

(** The three members of the enum.  A value of this type is a reference to
    the member object, compared by identity. *)
Inductive CameraMode : Type :=
| PERSPECTIVE
| ORTHOGRAPHIC
| PHYSICAL.

Definition CameraMode_eqb (a b : CameraMode) : bool :=
  match a, b with
  | PERSPECTIVE, PERSPECTIVE => true
  | ORTHOGRAPHIC, ORTHOGRAPHIC => true
  | PHYSICAL, PHYSICAL => true
  | _, _ => false
  end.

(** [self.value], the [_value_] stored by [__new__]. *)
Definition value (self : CameraMode) : Z :=
  match self with
  | PERSPECTIVE => 1
  | ORTHOGRAPHIC => 2
  | PHYSICAL => 3
  end.

(** The additional attribute of each member: [__new__] gives [fov_rad] to
    the member of value 1 only, [box_height] to the member of value 2 only
    and [focal_length] to the member of value 3 only. *)
Record Members (num : Type) : Type := mkMembers {
  fov_rad : num;
  box_height : num;
  focal_length : num
}.

Section CameraMode.
Context {num : Type} `{Arith num}.
Local Open Scope num_scope.
Local Open Scope py_scope.
Local Open Scope string_scope.

(** The store after the class body has run. *)
Definition CameraMode_members `{Trig num} : Members num :=
  {| fov_rad := of_int 80 * (pi / of_int 180);
     box_height := of_int 80;
     focal_length := of_int 80 |}.

Definition with_fov_rad (x : num) (st : Members num) : Members num :=
  {| fov_rad := x;
     box_height := box_height st;
     focal_length := focal_length st |}.

Definition with_box_height (x : num) (st : Members num) : Members num :=
  {| fov_rad := fov_rad st;
     box_height := x;
     focal_length := focal_length st |}.

Definition with_focal_length (x : num) (st : Members num) : Members num :=
  {| fov_rad := fov_rad st;
     box_height := box_height st;
     focal_length := x |}.

(** Attribute reads [self.fov_rad], [self.box_height] and
    [self.focal_length]: a member has only its own attribute. *)
Definition get_fov_rad (self : CameraMode) : Py (Members num) num :=
  match self with
  | PERSPECTIVE => gets (@fov_rad num)
  | _ => raise (AttributeError "fov_rad")
  end.

Definition get_box_height (self : CameraMode) : Py (Members num) num :=
  match self with
  | ORTHOGRAPHIC => gets (@box_height num)
  | _ => raise (AttributeError "box_height")
  end.

Definition get_focal_length (self : CameraMode) : Py (Members num) num :=
  match self with
  | PHYSICAL => gets (@focal_length num)
  | _ => raise (AttributeError "focal_length")
  end.

Definition set_fov_rad (self : CameraMode) (x : num)
    : Py (Members num) CameraMode :=
  (if (value self =? 1)%Z
   then modify (with_fov_rad x)
   else raise (ValueError "Invalid camera mode")) ;;;
  ret self.

Definition set_box_height (self : CameraMode) (x : num)
    : Py (Members num) CameraMode :=
  (if (value self =? 2)%Z
   then modify (with_box_height x)
   else raise (ValueError "Invalid camera mode")) ;;;
  ret self.

Definition set_focal_length (self : CameraMode) (x : num)
    : Py (Members num) CameraMode :=
  (if (value self =? 3)%Z
   then modify (with_focal_length x)
   else raise (ValueError "Invalid camera mode")) ;;;
  ret self.

End CameraMode.

(** ** CameraSettings *)

Record CameraSettings (num : Type) : Type := mkCameraSettings {
  mode : CameraMode;
  near_plane : num;
  far_plane : num;
  shutter_speed : num;
  aperture : num;
  iso : num;
  sensor_size : num * num;
  focus_distance : num;
  aspect_ratio : num
}.

Section CameraSettings.
Context {num : Type} `{Arith num}.
Local Open Scope num_scope.

(** [CameraSettings.__init__]: nine attribute assignments. *)
Definition CameraSettings_init {S : Type}
    (mode : CameraMode) (near_plane far_plane shutter_speed aperture iso : num)
    (sensor_size : num * num) (focus_distance aspect_ratio : num)
    : Py S (CameraSettings num) :=
  ret {| mode := mode;
         near_plane := near_plane;
         far_plane := far_plane;
         shutter_speed := shutter_speed;
         aperture := aperture;
         iso := iso;
         sensor_size := sensor_size;
         focus_distance := focus_distance;
         aspect_ratio := aspect_ratio |}.

(** [CameraSettings()], every argument left at its default. *)
Definition CameraSettings_default {S : Type} : Py S (CameraSettings num) :=
  CameraSettings_init PERSPECTIVE
    (of_int 1 / of_int 10) (of_int 10000) (of_int 10) (of_int 4)
    (of_int 100) (of_int 36, of_int 24) (of_int 4) (of_int 1).

End CameraSettings.

(** ** Camera *)

(** The Python-scope values the kernel body reads.  The body of a
    [@ti.kernel] method is traced once for each camera, at the first call on
    that camera, and the values read during the trace stay in the compiled
    kernel: later calls on the camera run it again without reading the
    settings or the mode parameter anew. *)
Record KernelValues (num : Type) : Type := mkKernelValues {
  kernel_near_plane : num;
  kernel_far_plane : num;
  kernel_aspect_ratio : num;
  kernel_fov_rad : num
}.

(** A camera: its three attributes and the kernel compiled for it, [None]
    as long as [compute_projection_matrix] has not traced its body for this
    camera. *)
Record Camera (num : Type) : Type := mkCamera {
  settings : CameraSettings num;
  projection_matrix : Matrix num;
  view_matrix : Matrix num;
  kernel : option (KernelValues num)
}.

Section Camera.
Context {num : Type} `{Arith num} `{Trig num}.
Local Open Scope num_scope.
Local Open Scope py_scope.

Definition Camera_init (settings : CameraSettings num) : Camera num :=
  {| settings := settings;
     projection_matrix := Matrix_field_4_4;
     view_matrix := Matrix_field_4_4;
     kernel := None |}.

(** [self.projection_matrix[None] = m] *)
Definition store_projection (self : Camera num) (m : Matrix num) : Camera num :=
  {| settings := settings self;
     projection_matrix := m;
     view_matrix := view_matrix self;
     kernel := kernel self |}.

(** The camera with the kernel compiled from the values [k]. *)
Definition with_kernel (k : KernelValues num) (self : Camera num) : Camera num :=
  {| settings := settings self;
     projection_matrix := projection_matrix self;
     view_matrix := view_matrix self;
     kernel := Some k |}.

(** The trace of the PERSPECTIVE branch: the reads of
    [self.settings.near_plane], [self.settings.mode.fov_rad],
    [self.settings.aspect_ratio] and [self.settings.far_plane]. *)
Definition trace_kernel (self : Camera num)
    : Py (Members num) (KernelValues num) :=
  fov <- get_fov_rad (mode (settings self)) ;;
  ret {| kernel_near_plane := near_plane (settings self);
         kernel_far_plane := far_plane (settings self);
         kernel_aspect_ratio := aspect_ratio (settings self);
         kernel_fov_rad := fov |}.

(** The values the call works with: those of the compiled kernel, or, at
    the first call, those read now. *)
Definition kernel_values (self : Camera num)
    : Py (Members num) (KernelValues num) :=
  match kernel self with
  | Some k => ret k
  | None => trace_kernel self
  end.

(** [kernel_values] as a function of the camera and the store. *)
Definition effective_kernel (self : Camera num) (st : Members num)
    : KernelValues num :=
  match kernel self with
  | Some k => k
  | None =>
      {| kernel_near_plane := near_plane (settings self);
         kernel_far_plane := far_plane (settings self);
         kernel_aspect_ratio := aspect_ratio (settings self);
         kernel_fov_rad := fov_rad st |}
  end.

(** The body of the PERSPECTIVE branch on the values [k]. *)
Definition run_kernel (k : KernelValues num) (self : Camera num) : Camera num :=
  let t := kernel_near_plane k * tan (kernel_fov_rad k / of_int 2) in
  let r := t * kernel_aspect_ratio k in
  store_projection self
    (projection_from_frustum
       (- r) r (- t) t
       (kernel_near_plane k) (kernel_far_plane k)).

(** The method returns nothing; the result is the receiver after the call.
    The mode test is made by [ti.static] during the trace as well; it is
    evaluated here at every call, which is the same test because nothing in
    this module reassigns the settings of a camera or the mode they hold. *)
Definition compute_projection_matrix (self : Camera num)
    : Py (Members num) (Camera num) :=
  if CameraMode_eqb (mode (settings self)) PERSPECTIVE then
    k <- kernel_values self ;;
    ret (run_kernel k (with_kernel k self))
  else ret self.

End Camera.

(** ** The derivation as the specification words it *)

Section FrustumDerivation.
Context {num : Type} `{Arith num}.
Variables left right bottom top near far : num.
Local Open Scope num_scope.

Definition spec_depth_range : num := far - near.
Definition spec_mxx : num := of_int 2 * near / (right - left).
Definition spec_myy : num := of_int 2 * near / (top - bottom).
Definition spec_mzx : num := (right + left) / (right - left).
Definition spec_mzy : num := (top + bottom) / (top - bottom).
Definition spec_mzz : num := - far / spec_depth_range.
Definition spec_mwz : num := near * spec_mzz.
Definition spec_mzw : num := of_int (-1).

Definition spec_row0 : list num := [spec_mxx; of_int 0; of_int 0; of_int 0].
Definition spec_row1 : list num := [of_int 0; spec_myy; of_int 0; of_int 0].
Definition spec_row2 : list num :=
  [spec_mzx; spec_mzy; - spec_mzz - of_int 1; spec_mzw].
Definition spec_row3 : list num := [of_int 0; of_int 0; - spec_mwz; of_int 0].

End FrustumDerivation.

(** ** Sample objects, in exact arithmetic *)

Section SampleObjects.
Local Open Scope R_scope.

(** The settings [CameraSettings()] builds, and the same with the mode
    argument set to each of the other two members. *)
Definition default_settings : CameraSettings R :=
  mkCameraSettings PERSPECTIVE (1/10) 10000 10 4 100 (36, 24) 4 1.

Definition orthographic_settings : CameraSettings R :=
  mkCameraSettings ORTHOGRAPHIC (1/10) 10000 10 4 100 (36, 24) 4 1.

Definition physical_settings : CameraSettings R :=
  mkCameraSettings PHYSICAL (1/10) 10000 10 4 100 (36, 24) 4 1.

(** The end-to-end scenario: [near_plane = 0.1], [far_plane = 1000] and
    [aspect_ratio = 16/9], the other arguments at their defaults, and the
    store after [CameraMode.PERSPECTIVE.set_fov_rad(math.pi / 2)]. *)
Definition scenario_settings : CameraSettings R :=
  mkCameraSettings PERSPECTIVE (1/10) 1000 10 4 100 (36, 24) 4 (16/9).

Definition scenario_members : Members R :=
  snd (set_fov_rad PERSPECTIVE (PI / 2) CameraMode_members).

End SampleObjects.

(** ** CameraMode.__new__ *)

(** The object [__new__] builds: its [_value_] and the additional
    attributes assigned to it, latest first. *)
Record EnumMember (num : Type) : Type := mkEnumMember {
  member_value : Z;
  member_attrs : list (string * num)
}.

Section CameraModeNew.
Context {num : Type}.
Local Open Scope string_scope.

(** [obj.name = data] *)
Definition setattr (obj : EnumMember num) (name : string) (data : num)
    : EnumMember num :=
  {| member_value := member_value obj;
     member_attrs := (name, data) :: member_attrs obj |}.

(** [getattr(obj, name)], [None] where Python raises [AttributeError]. *)
Fixpoint lookup_attr (name : string) (attrs : list (string * num)) : option num :=
  match attrs with
  | [] => None
  | (k, v) :: rest => if String.eqb name k then Some v else lookup_attr name rest
  end.

Definition CameraMode_new (value : Z) (data : num) : outcome (EnumMember num) :=
  let obj := {| member_value := value; member_attrs := [] |} in
  (* Add additional fields, with different name *)
  if (value =? 1)%Z then Returned (setattr obj "fov_rad" data)
  else if (value =? 2)%Z then Returned (setattr obj "box_height" data)
  else if (value =? 3)%Z then Returned (setattr obj "focal_length" data)
  else Raised (ValueError "Invalid camera mode").

End CameraModeNew.

(** The three member definitions of the class body, in order. *)
Definition CameraMode_class_body {num : Type} `{Arith num} `{Trig num}
    : list (CameraMode * outcome (EnumMember num)) :=
  [ (PERSPECTIVE, CameraMode_new 1 (mul (of_int 80) (div pi (of_int 180))));
    (ORTHOGRAPHIC, CameraMode_new 2 (of_int 80));
    (PHYSICAL, CameraMode_new 3 (of_int 80)) ].

(** ** Repeated calls and the use of the matrix *)

(** [n] calls of [compute_projection_matrix] on the same camera, one after
    the other. *)
Fixpoint compute_projection_matrix_times {num : Type} `{Arith num} `{Trig num}
    (n : nat) (self : Camera num) : Py (Members num) (Camera num) :=
  match n with
  | O => ret self
  | S k => bind (compute_projection_matrix self)
                (compute_projection_matrix_times k)
  end.

(** Component [j] of the product of the row vector [v] with the matrix:
    the sum of [v[i] * M[i][j]] over the rows.  It is undefined when [v]
    and [M] differ in length or a row has no entry [j]. *)
Fixpoint row_vector_times (v : list R) (M : Matrix R) (j : nat) : option R :=
  match v, M with
  | [], [] => Some 0%R
  | x :: v', row :: M' =>
      match nth_error row j, row_vector_times v' M' j with
      | Some m, Some s => Some (x * m + s)%R
      | _, _ => None
      end
  | _, _ => None
  end.

(** * Properties *)

(** ** The sample objects are what the source builds *)

Section SampleFacts.
Local Open Scope R_scope.

Lemma CameraSettings_default_value (S : Type) (st : S) :
  CameraSettings_default st = (Returned default_settings, st).
Proof. reflexivity. Qed.

Lemma scenario_settings_built (S : Type) (st : S) :
  CameraSettings_init PERSPECTIVE (1/10) 1000 10 4 100 (36, 24) 4 (16/9) st
    = (Returned scenario_settings, st).
Proof. reflexivity. Qed.

Lemma scenario_members_value :
  set_fov_rad PERSPECTIVE (PI / 2) CameraMode_members
    = (Returned PERSPECTIVE, scenario_members)
  /\ fov_rad scenario_members = PI / 2.
Proof. split; reflexivity. Qed.

Lemma Matrix_field_4_4_value :
  Matrix_field_4_4 (num := R)
    = [ [0; 0; 0; 0]; [0; 0; 0; 0]; [0; 0; 0; 0]; [0; 0; 0; 0] ].
Proof. reflexivity. Qed.

End SampleFacts.

(** ** Layout of the frustum matrix *)

Section FrustumLayout.
Context {num : Type} `{Arith num}.

(** C1. For all six inputs, and whatever the scalar arithmetic is,
    [projection_from_frustum] returns the four rows
    [mxx, 0, 0, 0], [0, myy, 0, 0], [mzx, mzy, -mzz-1, mzw] and
    [0, 0, -mwz, 0], with [depth_range], [mxx], [myy], [mzx], [mzy], [mzz],
    [mwz] and [mzw] computed as the derivation prescribes; so [mzw] sits at
    [2][3] and [-mwz] at [3][2]. *)
Theorem projection_from_frustum_layout (left right bottom top near far : num) :
  let M := projection_from_frustum left right bottom top near far in
  M = [ spec_row0 left right near;
        spec_row1 bottom top near;
        spec_row2 left right bottom top near far;
        spec_row3 near far ]
  /\ entry M 0 0 = Some (spec_mxx left right near)
  /\ entry M 1 1 = Some (spec_myy bottom top near)
  /\ entry M 2 0 = Some (spec_mzx left right)
  /\ entry M 2 1 = Some (spec_mzy bottom top)
  /\ entry M 2 2 = Some (sub (neg (spec_mzz near far)) (of_int 1))
  /\ entry M 2 3 = Some spec_mzw
  /\ entry M 3 2 = Some (neg (spec_mwz near far)).
Proof.
  cbv zeta.
  split; [reflexivity|].
  unfold projection_from_frustum, entry; cbn [nth_error].
  repeat split.
Qed.

End FrustumLayout.

(** ** Construction and the mode guards *)

Section Guards.
Context {num : Type} `{Arith num}.
Local Open Scope string_scope.

(** C3, as the source has it.  [CameraSettings] construction performs no
    validation: for every argument tuple, inside the documented domains
    or outside them, the call returns a settings object whose nine fields
    are the nine arguments, and it leaves the store as it was. *)
Theorem CameraSettings_init_total (S : Type) (st : S)
    (m : CameraMode) (near far shutter ap iso_value : num)
    (sensor : num * num) (focus aspect : num) :
  exists s : CameraSettings num,
    CameraSettings_init m near far shutter ap iso_value sensor focus aspect st
      = (Returned s, st)
    /\ mode s = m
    /\ near_plane s = near
    /\ far_plane s = far
    /\ shutter_speed s = shutter
    /\ aperture s = ap
    /\ iso s = iso_value
    /\ sensor_size s = sensor
    /\ focus_distance s = focus
    /\ aspect_ratio s = aspect.
Proof.
  eexists. split; [reflexivity|].
  cbn. repeat split.
Qed.

Lemma set_fov_rad_other (m : CameraMode) (x : num) (st : Members num) :
  m <> PERSPECTIVE ->
  set_fov_rad m x st = (Raised (ValueError "Invalid camera mode"), st).
Proof. destruct m; intros Hm; [contradiction | reflexivity | reflexivity]. Qed.

Lemma set_box_height_other (m : CameraMode) (x : num) (st : Members num) :
  m <> ORTHOGRAPHIC ->
  set_box_height m x st = (Raised (ValueError "Invalid camera mode"), st).
Proof. destruct m; intros Hm; [reflexivity | contradiction | reflexivity]. Qed.

Lemma set_focal_length_other (m : CameraMode) (x : num) (st : Members num) :
  m <> PHYSICAL ->
  set_focal_length m x st = (Raised (ValueError "Invalid camera mode"), st).
Proof. destruct m; intros Hm; [reflexivity | reflexivity | contradiction]. Qed.

Lemma set_fov_rad_own (x : num) (st : Members num) :
  set_fov_rad PERSPECTIVE x st = (Returned PERSPECTIVE, with_fov_rad x st).
Proof. reflexivity. Qed.

Lemma set_box_height_own (x : num) (st : Members num) :
  set_box_height ORTHOGRAPHIC x st = (Returned ORTHOGRAPHIC, with_box_height x st).
Proof. reflexivity. Qed.

Lemma set_focal_length_own (x : num) (st : Members num) :
  set_focal_length PHYSICAL x st = (Returned PHYSICAL, with_focal_length x st).
Proof. reflexivity. Qed.

(** C5. Let [m1], [m2], [m3] be any variants other than the one the
    mutator belongs to.  Then [set_fov_rad] on [m1], [set_box_height] on
    [m2] and [set_focal_length] on [m3] each end in the mode error (the
    source's [ValueError("Invalid camera mode")]) and write nothing; and each
    mutator called on its own variant returns that member, whose parameter
    then reads as the value given. *)
Theorem mutator_mode_guard (m1 m2 m3 : CameraMode) (x : num) (st : Members num) :
  m1 <> PERSPECTIVE -> m2 <> ORTHOGRAPHIC -> m3 <> PHYSICAL ->
  set_fov_rad m1 x st = (Raised (ValueError "Invalid camera mode"), st)
  /\ set_box_height m2 x st = (Raised (ValueError "Invalid camera mode"), st)
  /\ set_focal_length m3 x st = (Raised (ValueError "Invalid camera mode"), st)
  /\ (exists st', set_fov_rad PERSPECTIVE x st = (Returned PERSPECTIVE, st')
                  /\ get_fov_rad PERSPECTIVE st' = (Returned x, st'))
  /\ (exists st', set_box_height ORTHOGRAPHIC x st = (Returned ORTHOGRAPHIC, st')
                  /\ get_box_height ORTHOGRAPHIC st' = (Returned x, st'))
  /\ (exists st', set_focal_length PHYSICAL x st = (Returned PHYSICAL, st')
                  /\ get_focal_length PHYSICAL st' = (Returned x, st')).
Proof.
  intros H1 H2 H3.
  split; [apply set_fov_rad_other; exact H1|].
  split; [apply set_box_height_other; exact H2|].
  split; [apply set_focal_length_other; exact H3|].
  split; [eexists; split; [apply set_fov_rad_own | reflexivity]|].
  split; [eexists; split; [apply set_box_height_own | reflexivity]|].
  eexists; split; [apply set_focal_length_own | reflexivity].
Qed.

(** Once the store after the call is chosen, the call itself is the
    own-variant case of the mutator, every holder of the variant reads the
    written attribute, and the two other attributes are the old ones. *)
Ltac shared_member own :=
  split; [apply own|];
  split; [intros s Hs; rewrite Hs; reflexivity|];
  split; [intros c Hc; rewrite Hc; reflexivity|];
  split; reflexivity.

(** C10. The member of each variant is one object.  After a successful
    mutator call made through the mode of one holder, the new value is what
    every settings object and every camera of that variant reads, and the
    parameters of the other two variants are as before. *)
Theorem mutator_updates_shared_member
    (h1 h2 h3 : CameraSettings num) (x : num) (st : Members num) :
  mode h1 = PERSPECTIVE -> mode h2 = ORTHOGRAPHIC -> mode h3 = PHYSICAL ->
  (exists st',
      set_fov_rad (mode h1) x st = (Returned (mode h1), st')
      /\ (forall s : CameraSettings num, mode s = PERSPECTIVE ->
            get_fov_rad (mode s) st' = (Returned x, st'))
      /\ (forall c : Camera num, mode (settings c) = PERSPECTIVE ->
            get_fov_rad (mode (settings c)) st' = (Returned x, st'))
      /\ box_height st' = box_height st
      /\ focal_length st' = focal_length st)
  /\ (exists st',
      set_box_height (mode h2) x st = (Returned (mode h2), st')
      /\ (forall s : CameraSettings num, mode s = ORTHOGRAPHIC ->
            get_box_height (mode s) st' = (Returned x, st'))
      /\ (forall c : Camera num, mode (settings c) = ORTHOGRAPHIC ->
            get_box_height (mode (settings c)) st' = (Returned x, st'))
      /\ fov_rad st' = fov_rad st
      /\ focal_length st' = focal_length st)
  /\ (exists st',
      set_focal_length (mode h3) x st = (Returned (mode h3), st')
      /\ (forall s : CameraSettings num, mode s = PHYSICAL ->
            get_focal_length (mode s) st' = (Returned x, st'))
      /\ (forall c : Camera num, mode (settings c) = PHYSICAL ->
            get_focal_length (mode (settings c)) st' = (Returned x, st'))
      /\ fov_rad st' = fov_rad st
      /\ box_height st' = box_height st).
Proof.
  intros H1 H2 H3. rewrite H1, H2, H3.
  split; [|split].
  - exists (with_fov_rad x st). shared_member set_fov_rad_own.
  - exists (with_box_height x st). shared_member set_box_height_own.
  - exists (with_focal_length x st). shared_member set_focal_length_own.
Qed.

End Guards.

(** ** The projection call *)

Section Projection.
Context {num : Type} `{Arith num} `{Trig num}.
Local Open Scope num_scope.

Lemma kernel_values_effective (self : Camera num) (st : Members num) :
  mode (settings self) = PERSPECTIVE ->
  kernel_values self st = (Returned (effective_kernel self st), st).
Proof.
  intros Hm. unfold kernel_values, effective_kernel, trace_kernel.
  destruct (kernel self); [reflexivity|].
  rewrite Hm. reflexivity.
Qed.

Lemma compute_projection_matrix_PERSPECTIVE (self : Camera num) (st : Members num) :
  mode (settings self) = PERSPECTIVE ->
  compute_projection_matrix self st =
    (Returned
       (run_kernel (effective_kernel self st)
          (with_kernel (effective_kernel self st) self)),
     st).
Proof.
  intros Hm. unfold compute_projection_matrix. rewrite Hm. cbn [CameraMode_eqb].
  unfold bind. rewrite (kernel_values_effective self st Hm). reflexivity.
Qed.

(** At the first call the values are the current ones. *)
Lemma effective_kernel_first (self : Camera num) (st : Members num) :
  kernel self = None ->
  effective_kernel self st =
    {| kernel_near_plane := near_plane (settings self);
       kernel_far_plane := far_plane (settings self);
       kernel_aspect_ratio := aspect_ratio (settings self);
       kernel_fov_rad := fov_rad st |}.
Proof. intros Hk. unfold effective_kernel. rewrite Hk. reflexivity. Qed.


Lemma compute_projection_matrix_other (self : Camera num) (st : Members num) :
  mode (settings self) <> PERSPECTIVE ->
  compute_projection_matrix self st = (Returned self, st).
Proof.
  intros Hm. unfold compute_projection_matrix.
  destruct (mode (settings self)); [contradiction | reflexivity | reflexivity].
Qed.

(** C4, as the source has it.  On a camera whose mode is [ORTHOGRAPHIC] or
    [PHYSICAL] the call returns without signalling anything and leaves the
    camera, its [projection_matrix] slot included, and the store exactly as
    they were. *)
Theorem compute_projection_matrix_skips_other_modes
    (self : Camera num) (st : Members num) :
  mode (settings self) = ORTHOGRAPHIC \/ mode (settings self) = PHYSICAL ->
  compute_projection_matrix self st = (Returned self, st).
Proof.
  intros Hm. apply compute_projection_matrix_other.
  destruct Hm as [Hm | Hm]; rewrite Hm; discriminate.
Qed.

(** C9. Two calls in succession, with the settings and the mode parameters
    unchanged in between: both return, and the [projection_matrix] after the
    second call is the one after the first.  This holds for every scalar
    arithmetic, since nothing but the settings and the mode parameter
    enters the computation. *)
Theorem compute_projection_matrix_twice (self : Camera num) (st : Members num) :
  exists self1 self2 : Camera num,
    compute_projection_matrix self st = (Returned self1, st)
    /\ compute_projection_matrix self1 st = (Returned self2, st)
    /\ projection_matrix self2 = projection_matrix self1.
Proof.
  destruct (CameraMode_eqb (mode (settings self)) PERSPECTIVE) eqn:E.
  - assert (Hm : mode (settings self) = PERSPECTIVE)
      by (destruct (mode (settings self)); [reflexivity | discriminate | discriminate]).
    eexists. eexists.
    split; [apply compute_projection_matrix_PERSPECTIVE; exact Hm|].
    split; [apply compute_projection_matrix_PERSPECTIVE; exact Hm|].
    reflexivity.
  - assert (Hm : mode (settings self) <> PERSPECTIVE)
      by (intros Hm; rewrite Hm in E; discriminate).
    exists self, self.
    rewrite compute_projection_matrix_other by exact Hm.
    repeat split.
Qed.

End Projection.

(** ** Exact arithmetic *)

Section Exact.
Local Open Scope R_scope.

Lemma frustum_entry_0_0 (left right bottom top near far : R) :
  entry (projection_from_frustum left right bottom top near far) 0 0
    = Some (2 * near / (right - left)).
Proof. reflexivity. Qed.

Lemma frustum_entry_1_1 (left right bottom top near far : R) :
  entry (projection_from_frustum left right bottom top near far) 1 1
    = Some (2 * near / (top - bottom)).
Proof. reflexivity. Qed.

Lemma frustum_entry_2_2 (left right bottom top near far : R) :
  entry (projection_from_frustum left right bottom top near far) 2 2
    = Some (- (- far / (far - near)) - 1).
Proof. reflexivity. Qed.

Lemma frustum_entry_3_2 (left right bottom top near far : R) :
  entry (projection_from_frustum left right bottom top near far) 3 2
    = Some (- (near * (- far / (far - near)))).
Proof. reflexivity. Qed.

Lemma reversed_depth_term (near far : R) :
  near < far -> - (- far / (far - near)) - 1 = near / (far - near).
Proof. intros Hnf. field. lra. Qed.

Lemma ratio_below_one (a d : R) : 0 < d -> (a / d < 1 <-> a < d).
Proof.
  intros Hd. split; intros Hlt.
  - apply (Rmult_lt_compat_r d) in Hlt; [|exact Hd].
    unfold Rdiv in Hlt.
    rewrite Rmult_assoc, Rinv_l, Rmult_1_r, Rmult_1_l in Hlt; lra.
  - apply (Rmult_lt_reg_r d); [exact Hd|].
    unfold Rdiv. rewrite Rmult_assoc, Rinv_l, Rmult_1_r, Rmult_1_l; lra.
Qed.

Lemma ratio_positive (a d : R) : 0 < a -> 0 < d -> 0 < a / d.
Proof.
  intros Ha Hd. unfold Rdiv.
  apply Rmult_lt_0_compat; [exact Ha | apply Rinv_0_lt_compat; exact Hd].
Qed.


(** C6, as the code has it (exact arithmetic).  For every frustum with
    [left < right], [bottom < top] and [0 < near < far], the entries
    [0][0] and [1][1] are strictly positive and the entry [2][2], which is
    [near / (far - near)], is strictly positive; it is below 1 exactly when
    [far] exceeds twice [near]. *)
Theorem frustum_diagonal_signs (left right bottom top near far : R) :
  left < right -> bottom < top -> 0 < near -> near < far ->
  exists m00 m11 m22 : R,
    entry (projection_from_frustum left right bottom top near far) 0 0 = Some m00
    /\ entry (projection_from_frustum left right bottom top near far) 1 1 = Some m11
    /\ entry (projection_from_frustum left right bottom top near far) 2 2 = Some m22
    /\ 0 < m00 /\ 0 < m11 /\ 0 < m22
    /\ m22 = near / (far - near)
    /\ (m22 < 1 <-> 2 * near < far).
Proof.
  intros Hlr Hbt Hn Hnf.
  exists (2 * near / (right - left)), (2 * near / (top - bottom)),
         (- (- far / (far - near)) - 1).
  split; [apply frustum_entry_0_0|].
  split; [apply frustum_entry_1_1|].
  split; [apply frustum_entry_2_2|].
  rewrite (reversed_depth_term Hnf).
  split; [apply ratio_positive; lra|].
  split; [apply ratio_positive; lra|].
  split; [apply ratio_positive; lra|].
  split; [reflexivity|].
  rewrite ratio_below_one by lra. split; lra.
Qed.

Lemma tan_half_right_angle : Rtrigo1.tan (PI / 2 / 2) = 1.
Proof.
  replace (PI / 2 / 2) with (PI / 4) by field.
  exact tan_PI4.
Qed.

Lemma scenario_computed :
  compute_projection_matrix (Camera_init scenario_settings) scenario_members =
    (Returned
       (store_projection
          (with_kernel
             {| kernel_near_plane := 1/10;
                kernel_far_plane := 1000;
                kernel_aspect_ratio := 16/9;
                kernel_fov_rad := PI / 2 |}
             (Camera_init scenario_settings))
          (projection_from_frustum
             (- (1/10 * (16/9))) (1/10 * (16/9)) (- (1/10)) (1/10) (1/10) 1000)),
     scenario_members).
Proof.
  rewrite compute_projection_matrix_PERSPECTIVE by reflexivity.
  unfold run_kernel, effective_kernel. cbn.
  rewrite tan_half_right_angle, Rmult_1_r. reflexivity.
Qed.

Lemma scenario_entry_0_0 :
  entry (projection_from_frustum
           (- (1/10 * (16/9))) (1/10 * (16/9)) (- (1/10)) (1/10) (1/10) 1000) 0 0
    = Some (5625/10000).
Proof. rewrite frustum_entry_0_0. f_equal. field. Qed.

Lemma scenario_entry_1_1 :
  entry (projection_from_frustum
           (- (1/10 * (16/9))) (1/10 * (16/9)) (- (1/10)) (1/10) (1/10) 1000) 1 1
    = Some 1.
Proof. rewrite frustum_entry_1_1. f_equal. field. Qed.

(** C7, as the code has it (exact arithmetic).  In the scenario the call
    derives [t = 0.1] and [r = 0.1 * (16/9)], about 0.1778, and the stored
    matrix has [0][0] = 0.5625 and [1][1] = 1. *)
Theorem scenario_projection :
  let t := near_plane scenario_settings * tan (fov_rad scenario_members / 2) in
  let r := t * aspect_ratio scenario_settings in
  t = 1/10
  /\ r = 1/10 * (16/9)
  /\ Rabs (r - 1778/10000) <= 1/10000
  /\ exists self' : Camera R,
       compute_projection_matrix (Camera_init scenario_settings) scenario_members
         = (Returned self', scenario_members)
       /\ projection_matrix self' =
            projection_from_frustum (- r) r (- t) t (1/10) 1000
       /\ entry (projection_matrix self') 0 0 = Some (5625/10000)
       /\ entry (projection_matrix self') 1 1 = Some 1.
Proof.
  assert (Ht : near_plane scenario_settings * tan (fov_rad scenario_members / 2)
               = 1/10).
  { cbn. rewrite tan_half_right_angle. apply Rmult_1_r. }
  cbv zeta. rewrite Ht.
  split; [reflexivity|].
  split; [reflexivity|].
  split; [cbn; apply Rabs_le; lra|].
  eexists.
  split; [apply scenario_computed|].
  split; [reflexivity|].
  split; [apply scenario_entry_0_0 | apply scenario_entry_1_1].
Qed.

(** C7 as worded fails: the stored [0][0] and [1][1] are 0.5625 and 1, each
    further than 1e-4 from the 1.125 and 2.0 of the claim. *)
Lemma scenario_diagonal_off_claimed :
  exists (self' : Camera R) (m00 m11 : R),
    compute_projection_matrix (Camera_init scenario_settings) scenario_members
      = (Returned self', scenario_members)
    /\ entry (projection_matrix self') 0 0 = Some m00
    /\ entry (projection_matrix self') 1 1 = Some m11
    /\ Rabs (m00 - 1125/1000) > 1/10000
    /\ Rabs (m11 - 2) > 1/10000.
Proof.
  eexists. exists (5625/10000), 1.
  split; [apply scenario_computed|].
  split; [apply scenario_entry_0_0|].
  split; [apply scenario_entry_1_1|].
  split; (rewrite Rabs_left by lra); lra.
Qed.

Lemma sample_entry_0_0 :
  entry (projection_from_frustum (-1) 1 (-1) 1 (1/10) 100) 0 0 = Some (1/10).
Proof. rewrite frustum_entry_0_0. f_equal. field. Qed.

Lemma sample_entry_1_1 :
  entry (projection_from_frustum (-1) 1 (-1) 1 (1/10) 100) 1 1 = Some (1/10).
Proof. rewrite frustum_entry_1_1. f_equal. field. Qed.

(** C8, as the code has it (exact arithmetic).  For [left = -1],
    [right = 1], [bottom = -1], [top = 1], [near = 0.1], [far = 100] the
    entries [0][0] and [1][1] are 0.1, and with [mzz = -100/99.9], about
    -1.001, the entries [2][2] and [3][2] are [-mzz - 1] and [-(near * mzz)]. *)
Theorem frustum_sample :
  let M := projection_from_frustum (-1) 1 (-1) 1 (1/10) 100 in
  let mzz := - 100 / (999/10) in
  entry M 0 0 = Some (1/10)
  /\ entry M 1 1 = Some (1/10)
  /\ entry M 2 2 = Some (- mzz - 1)
  /\ entry M 3 2 = Some (- (1/10 * mzz))
  /\ Rabs (mzz - - (1001/1000)) <= 1/1000.
Proof.
  cbv zeta.
  split; [apply sample_entry_0_0|].
  split; [apply sample_entry_1_1|].
  split; [rewrite frustum_entry_2_2; f_equal; field|].
  split; [rewrite frustum_entry_3_2; f_equal; field|].
  apply Rabs_le. lra.
Qed.

(** C8 as worded fails: [mxx] and [myy] are 0.1, not 0.2. *)
Lemma frustum_sample_not_two_tenths :
  let M := projection_from_frustum (-1) 1 (-1) 1 (1/10) 100 in
  entry M 0 0 <> Some (2/10) /\ entry M 1 1 <> Some (2/10).
Proof.
  cbv zeta. rewrite sample_entry_0_0, sample_entry_1_1.
  split; intros Habs; injection Habs as Habs; lra.
Qed.

(** C6 as worded fails: this frustum meets every precondition
    ([-1 < 1], [-1 < 1], [0 < 1 < 3/2]) and its entry [2][2] is 2. *)
Lemma frustum_depth_entry_not_below_one :
  ~ (forall left right bottom top near far : R,
        left < right -> bottom < top -> 0 < near -> near < far ->
        exists m00 m11 m22 : R,
          entry (projection_from_frustum left right bottom top near far) 0 0 = Some m00
          /\ entry (projection_from_frustum left right bottom top near far) 1 1 = Some m11
          /\ entry (projection_from_frustum left right bottom top near far) 2 2 = Some m22
          /\ 0 < m00 /\ 0 < m11 /\ 0 < m22 < 1).
Proof.
  intros Hclaim.
  destruct (Hclaim (-1) 1 (-1) 1 1 (3/2))
    as (m00 & m11 & m22 & _ & _ & E22 & _ & _ & _ & Hlt); try lra.
  rewrite frustum_entry_2_2 in E22. injection E22 as E22.
  assert (m22 = 2) by (rewrite <- E22; field).
  lra.
Qed.



(** C3 as worded fails: construction succeeds on arguments with
    [near_plane >= far_plane], a shutter speed, ISO, sensor size, aspect
    ratio and focus distance that are not positive, and an aperture of 64. *)
Lemma CameraSettings_init_accepts_anything :
  exists s : CameraSettings R,
    CameraSettings_init PERSPECTIVE 2 1 0 64 (-100) (0, -24) 0 (-1)
        (CameraMode_members (num := R))
      = (Returned s, CameraMode_members)
    /\ near_plane s >= far_plane s
    /\ shutter_speed s <= 0
    /\ ~ (1 <= aperture s <= 32)
    /\ iso s <= 0
    /\ fst (sensor_size s) <= 0 /\ snd (sensor_size s) <= 0
    /\ focus_distance s <= 0
    /\ aspect_ratio s <= 0.
Proof.
  eexists. split; [reflexivity|].
  cbn. repeat split; try lra.
Qed.

(** C4 as worded fails: on a fresh ORTHOGRAPHIC camera the call returns
    normally, nothing is raised, and the slot still holds its initial
    zeros. *)
Lemma orthographic_call_is_silent :
  compute_projection_matrix (Camera_init orthographic_settings) CameraMode_members
    = (Returned (Camera_init orthographic_settings), CameraMode_members)
  /\ (forall e : exn,
        fst (compute_projection_matrix
               (Camera_init orthographic_settings) CameraMode_members)
          <> Raised e)
  /\ projection_matrix (Camera_init orthographic_settings)
       = [ [0; 0; 0; 0]; [0; 0; 0; 0]; [0; 0; 0; 0]; [0; 0; 0; 0] ].
Proof.
  rewrite compute_projection_matrix_other by (cbn; discriminate).
  split; [reflexivity|].
  split; [intros e; cbn; discriminate | reflexivity].
Qed.

(** *** Instances of the conditional statements *)


Lemma compute_projection_matrix_skips_other_modes_witness :
  (mode (settings (Camera_init orthographic_settings)) = ORTHOGRAPHIC
   \/ mode (settings (Camera_init orthographic_settings)) = PHYSICAL)
  /\ compute_projection_matrix (Camera_init orthographic_settings) CameraMode_members
       = (Returned (Camera_init orthographic_settings), CameraMode_members).
Proof.
  split; [left; reflexivity|].
  apply (@compute_projection_matrix_skips_other_modes R _ _
           (Camera_init orthographic_settings) CameraMode_members).
  left; reflexivity.
Defined.

Lemma mutator_mode_guard_witness :
  (ORTHOGRAPHIC <> PERSPECTIVE /\ PHYSICAL <> ORTHOGRAPHIC /\ PERSPECTIVE <> PHYSICAL)
  /\ set_fov_rad ORTHOGRAPHIC 1 (CameraMode_members (num := R))
       = (Raised (ValueError "Invalid camera mode"), CameraMode_members)
  /\ set_box_height PHYSICAL 1 (CameraMode_members (num := R))
       = (Raised (ValueError "Invalid camera mode"), CameraMode_members)
  /\ set_focal_length PERSPECTIVE 1 (CameraMode_members (num := R))
       = (Raised (ValueError "Invalid camera mode"), CameraMode_members)
  /\ (exists st', set_fov_rad PERSPECTIVE 1 (CameraMode_members (num := R))
                    = (Returned PERSPECTIVE, st')
                  /\ get_fov_rad PERSPECTIVE st' = (Returned 1, st'))
  /\ (exists st', set_box_height ORTHOGRAPHIC 1 (CameraMode_members (num := R))
                    = (Returned ORTHOGRAPHIC, st')
                  /\ get_box_height ORTHOGRAPHIC st' = (Returned 1, st'))
  /\ (exists st', set_focal_length PHYSICAL 1 (CameraMode_members (num := R))
                    = (Returned PHYSICAL, st')
                  /\ get_focal_length PHYSICAL st' = (Returned 1, st')).
Proof.
  split; [repeat split; discriminate|].
  apply (@mutator_mode_guard R ORTHOGRAPHIC PHYSICAL PERSPECTIVE 1
           CameraMode_members); discriminate.
Defined.

Lemma frustum_diagonal_signs_witness :
  (-1 < 1 /\ -1 < 1 /\ 0 < 1 /\ 1 < 4)
  /\ exists m00 m11 m22 : R,
       entry (projection_from_frustum (-1) 1 (-1) 1 1 4) 0 0 = Some m00
       /\ entry (projection_from_frustum (-1) 1 (-1) 1 1 4) 1 1 = Some m11
       /\ entry (projection_from_frustum (-1) 1 (-1) 1 1 4) 2 2 = Some m22
       /\ 0 < m00 /\ 0 < m11 /\ 0 < m22
       /\ m22 = 1 / (4 - 1)
       /\ (m22 < 1 <-> 2 * 1 < 4).
Proof.
  split; [lra|].
  apply (@frustum_diagonal_signs (-1) 1 (-1) 1 1 4); lra.
Defined.

Lemma mutator_updates_shared_member_witness :
  (mode default_settings = PERSPECTIVE
   /\ mode orthographic_settings = ORTHOGRAPHIC
   /\ mode physical_settings = PHYSICAL)
  /\ (exists st',
        set_fov_rad (mode default_settings) 1 CameraMode_members
          = (Returned (mode default_settings), st')
        /\ (forall s : CameraSettings R, mode s = PERSPECTIVE ->
              get_fov_rad (mode s) st' = (Returned 1, st'))
        /\ (forall c : Camera R, mode (settings c) = PERSPECTIVE ->
              get_fov_rad (mode (settings c)) st' = (Returned 1, st'))
        /\ box_height st' = box_height CameraMode_members
        /\ focal_length st' = focal_length CameraMode_members)
  /\ (exists st',
        set_box_height (mode orthographic_settings) 1 CameraMode_members
          = (Returned (mode orthographic_settings), st')
        /\ (forall s : CameraSettings R, mode s = ORTHOGRAPHIC ->
              get_box_height (mode s) st' = (Returned 1, st'))
        /\ (forall c : Camera R, mode (settings c) = ORTHOGRAPHIC ->
              get_box_height (mode (settings c)) st' = (Returned 1, st'))
        /\ fov_rad st' = fov_rad CameraMode_members
        /\ focal_length st' = focal_length CameraMode_members)
  /\ (exists st',
        set_focal_length (mode physical_settings) 1 CameraMode_members
          = (Returned (mode physical_settings), st')
        /\ (forall s : CameraSettings R, mode s = PHYSICAL ->
              get_focal_length (mode s) st' = (Returned 1, st'))
        /\ (forall c : Camera R, mode (settings c) = PHYSICAL ->
              get_focal_length (mode (settings c)) st' = (Returned 1, st'))
        /\ fov_rad st' = fov_rad CameraMode_members
        /\ box_height st' = box_height CameraMode_members).
Proof.
  split; [repeat split|].
  apply (@mutator_updates_shared_member R
           default_settings orthographic_settings physical_settings
           1 CameraMode_members); reflexivity.
Defined.

End Exact.

(** ** The frustum function on binary64 *)

Section Binary64.
Local Open Scope float_scope.

(** The sample of C8 in binary64: the two scale entries are the binary64
    value of 0.1, computed as [2 * 0.1 / 2]. *)
Example frustum_sample_binary64 :
  let near := div (of_int 1) (of_int 10) in
  let M := projection_from_frustum (-1) 1 (-1) 1 near 100 in
  entry M 0 0 = Some near /\ entry M 1 1 = Some near.
Proof. vm_compute. split; reflexivity. Qed.

(** The frustum refuting C6 has only exactly representable bounds, and
    binary64 gives the same depth entry as exact arithmetic. *)
Example frustum_depth_entry_binary64 :
  entry (projection_from_frustum (-1) 1 (-1) 1 1 1.5) 2 2 = Some 2.
Proof. vm_compute. reflexivity. Qed.

(** Rounding is outside [frustum_diagonal_signs]: with [near = 2^-60] and
    [far = 1] the difference [far - near] rounds to 1 and the depth entry
    is 0. *)
Example frustum_depth_entry_rounds_to_zero :
  entry (projection_from_frustum (-1) 1 (-1) 1 0x1p-60 1) 2 2 = Some 0.
Proof. vm_compute. reflexivity. Qed.

End Binary64.

(** * Further properties *)

(** ** Members and their attributes *)

Section MemberObjects.
Context {num : Type}.
Local Open Scope string_scope.

Lemma CameraMode_new_value (m : CameraMode) (data : num) :
  CameraMode_new (value m) data =
    Returned {| member_value := value m;
                member_attrs :=
                  [ (match m with
                     | PERSPECTIVE => "fov_rad"
                     | ORTHOGRAPHIC => "box_height"
                     | PHYSICAL => "focal_length"
                     end, data) ] |}.
Proof. destruct m; reflexivity. Qed.

Lemma value_range (v : Z) :
  (exists m : CameraMode, value m = v) <-> (1 <= v <= 3)%Z.
Proof.
  split.
  - intros [m Hm]. destruct m; cbn in Hm; lia.
  - intros Hv.
    assert (Hc : v = 1%Z \/ v = 2%Z \/ v = 3%Z) by lia.
    destruct Hc as [-> | [-> | ->]];
      [exists PERSPECTIVE | exists ORTHOGRAPHIC | exists PHYSICAL]; reflexivity.
Qed.

(** X1. [__new__] returns an object exactly for the values 1, 2 and 3, the
    values of the three members, and raises
    [ValueError("Invalid camera mode")] for every other value.  The object
    keeps the value it was given and carries one attribute holding the
    data: [fov_rad] for 1, [box_height] for 2, [focal_length] for 3. *)
Theorem CameraMode_new_accepts_member_values (v : Z) (data : num) :
  ((exists obj, CameraMode_new v data = Returned obj) <-> (1 <= v <= 3)%Z)
  /\ (~ (1 <= v <= 3)%Z ->
        CameraMode_new v data = Raised (ValueError "Invalid camera mode"))
  /\ (forall obj, CameraMode_new v data = Returned obj ->
        member_value obj = v
        /\ exists name,
             member_attrs obj = [(name, data)]
             /\ (name = "fov_rad" <-> v = 1%Z)
             /\ (name = "box_height" <-> v = 2%Z)
             /\ (name = "focal_length" <-> v = 3%Z)).
Proof.
  unfold CameraMode_new.
  destruct (Z.eqb_spec v 1) as [-> | H1].
  { split; [split; [lia | eexists; reflexivity]|].
    split; [lia|].
    intros obj Hobj. injection Hobj as <-. split; [reflexivity|].
    exists "fov_rad". cbn. repeat split; intros; (reflexivity || discriminate). }
  destruct (Z.eqb_spec v 2) as [-> | H2].
  { split; [split; [lia | eexists; reflexivity]|].
    split; [lia|].
    intros obj Hobj. injection Hobj as <-. split; [reflexivity|].
    exists "box_height". cbn. repeat split; intros; (reflexivity || discriminate). }
  destruct (Z.eqb_spec v 3) as [-> | H3].
  { split; [split; [lia | eexists; reflexivity]|].
    split; [lia|].
    intros obj Hobj. injection Hobj as <-. split; [reflexivity|].
    exists "focal_length". cbn. repeat split; intros; (reflexivity || discriminate). }
  split; [split; [intros [obj Hobj]; discriminate | lia]|].
  split; [reflexivity|].
  intros obj Hobj. discriminate.
Qed.

End MemberObjects.

Section MemberStore.
Context {num : Type} `{Arith num} `{Trig num}.
Local Open Scope string_scope.

(** X2. The store the embedding starts from is the one the class body
    builds: each of the three member definitions returns an object, and
    reading that object's attributes gives the member's field of
    [CameraMode_members] under the member's own attribute name and nothing
    under the two other names. *)
Theorem CameraMode_members_from_class_body :
  forall (m : CameraMode) (r : outcome (EnumMember num)),
    In (m, r) CameraMode_class_body ->
    exists obj,
      r = Returned obj
      /\ member_value obj = value m
      /\ lookup_attr "fov_rad" (member_attrs obj) =
           match m with PERSPECTIVE => Some (fov_rad CameraMode_members) | _ => None end
      /\ lookup_attr "box_height" (member_attrs obj) =
           match m with ORTHOGRAPHIC => Some (box_height CameraMode_members) | _ => None end
      /\ lookup_attr "focal_length" (member_attrs obj) =
           match m with PHYSICAL => Some (focal_length CameraMode_members) | _ => None end.
Proof.
  intros m r Hin.
  destruct Hin as [E | [E | [E | []]]]; injection E as <- <-;
    eexists; (split; [reflexivity|]); cbn; repeat split.
Qed.

End MemberStore.

Section MemberInstances.
Local Open Scope string_scope.

Lemma CameraMode_new_accepts_member_values_witness :
  ~ (1 <= 4 <= 3)%Z
  /\ ((exists obj, CameraMode_new 4 1%Z = Returned obj) <-> (1 <= 4 <= 3)%Z)
  /\ (~ (1 <= 4 <= 3)%Z ->
        CameraMode_new 4 1%Z = Raised (ValueError "Invalid camera mode"))
  /\ (forall obj, CameraMode_new 4 1%Z = Returned obj ->
        member_value obj = 4%Z
        /\ exists name,
             member_attrs obj = [(name, 1%Z)]
             /\ (name = "fov_rad" <-> 4%Z = 1%Z)
             /\ (name = "box_height" <-> 4%Z = 2%Z)
             /\ (name = "focal_length" <-> 4%Z = 3%Z)).
Proof.
  split; [lia|].
  apply (@CameraMode_new_accepts_member_values Z 4%Z 1%Z).
Defined.

Lemma CameraMode_members_from_class_body_witness :
  In (ORTHOGRAPHIC, CameraMode_new 2 80%R) (CameraMode_class_body (num := R))
  /\ exists obj,
       CameraMode_new 2 80%R = Returned obj
       /\ member_value obj = value ORTHOGRAPHIC
       /\ lookup_attr "fov_rad" (member_attrs obj) = None
       /\ lookup_attr "box_height" (member_attrs obj)
            = Some (box_height (CameraMode_members (num := R)))
       /\ lookup_attr "focal_length" (member_attrs obj) = None.
Proof.
  assert (Hin : In (ORTHOGRAPHIC, CameraMode_new 2 80%R)
                   (CameraMode_class_body (num := R)))
    by (right; left; reflexivity).
  split; [exact Hin|].
  exact (@CameraMode_members_from_class_body R _ _ ORTHOGRAPHIC _ Hin).
Defined.

End MemberInstances.

(** ** Mutators in sequence *)

Section MutatorChains.
Context {num : Type}.
Local Open Scope string_scope.
Local Open Scope py_scope.

(** X3. A chain of two different mutators, the second called on what the
    first returns, ends in [ValueError("Invalid camera mode")] whatever the
    member it starts from, since no member passes both guards.  The store
    afterwards holds the first write when the first call was on its own
    member, and is untouched otherwise. *)
Theorem mixed_mutator_chain_fails (m : CameraMode) (a b : num) (st : Members num) :
  (s <- set_fov_rad m a ;; set_box_height s b) st =
    (Raised (ValueError "Invalid camera mode"),
     if CameraMode_eqb m PERSPECTIVE then with_fov_rad a st else st)
  /\ (s <- set_fov_rad m a ;; set_focal_length s b) st =
    (Raised (ValueError "Invalid camera mode"),
     if CameraMode_eqb m PERSPECTIVE then with_fov_rad a st else st)
  /\ (s <- set_box_height m a ;; set_fov_rad s b) st =
    (Raised (ValueError "Invalid camera mode"),
     if CameraMode_eqb m ORTHOGRAPHIC then with_box_height a st else st)
  /\ (s <- set_box_height m a ;; set_focal_length s b) st =
    (Raised (ValueError "Invalid camera mode"),
     if CameraMode_eqb m ORTHOGRAPHIC then with_box_height a st else st)
  /\ (s <- set_focal_length m a ;; set_fov_rad s b) st =
    (Raised (ValueError "Invalid camera mode"),
     if CameraMode_eqb m PHYSICAL then with_focal_length a st else st)
  /\ (s <- set_focal_length m a ;; set_box_height s b) st =
    (Raised (ValueError "Invalid camera mode"),
     if CameraMode_eqb m PHYSICAL then with_focal_length a st else st).
Proof.
  destruct m; repeat split.
Qed.

(** X4. Calling the same mutator again on the member it returned
    overwrites: the chain has the outcome and the store of the second call
    alone. *)
Theorem same_mutator_chain_last_wins (m : CameraMode) (a b : num) (st : Members num) :
  (s <- set_fov_rad m a ;; set_fov_rad s b) st = set_fov_rad m b st
  /\ (s <- set_box_height m a ;; set_box_height s b) st = set_box_height m b st
  /\ (s <- set_focal_length m a ;; set_focal_length s b) st = set_focal_length m b st.
Proof.
  destruct m; repeat split.
Qed.

(** X5. Mutators of different members do not interfere: called on their
    own members in either order, both calls return and the store ends up
    the same. *)
Theorem own_mutators_commute (a b : num) (st : Members num) :
  (exists st',
      (set_fov_rad PERSPECTIVE a ;;; set_box_height ORTHOGRAPHIC b) st
        = (Returned ORTHOGRAPHIC, st')
      /\ (set_box_height ORTHOGRAPHIC b ;;; set_fov_rad PERSPECTIVE a) st
        = (Returned PERSPECTIVE, st')
      /\ fov_rad st' = a /\ box_height st' = b
      /\ focal_length st' = focal_length st)
  /\ (exists st',
      (set_fov_rad PERSPECTIVE a ;;; set_focal_length PHYSICAL b) st
        = (Returned PHYSICAL, st')
      /\ (set_focal_length PHYSICAL b ;;; set_fov_rad PERSPECTIVE a) st
        = (Returned PERSPECTIVE, st')
      /\ fov_rad st' = a /\ focal_length st' = b
      /\ box_height st' = box_height st)
  /\ (exists st',
      (set_box_height ORTHOGRAPHIC a ;;; set_focal_length PHYSICAL b) st
        = (Returned PHYSICAL, st')
      /\ (set_focal_length PHYSICAL b ;;; set_box_height ORTHOGRAPHIC a) st
        = (Returned ORTHOGRAPHIC, st')
      /\ box_height st' = a /\ focal_length st' = b
      /\ fov_rad st' = fov_rad st).
Proof.
  split; [|split]; eexists; repeat split.
Qed.

(** X6. Guard and attribute agree: a mutator returns on exactly the
    members on which its attribute can be read, and on every other member
    the read raises [AttributeError] and the write raises [ValueError], both
    leaving the store alone. *)
Theorem mutator_guard_matches_attribute (m : CameraMode) (x : num) (st : Members num) :
  ((exists st', set_fov_rad m x st = (Returned m, st'))
     <-> (exists v, get_fov_rad m st = (Returned v, st)))
  /\ ((exists st', set_box_height m x st = (Returned m, st'))
     <-> (exists v, get_box_height m st = (Returned v, st)))
  /\ ((exists st', set_focal_length m x st = (Returned m, st'))
     <-> (exists v, get_focal_length m st = (Returned v, st)))
  /\ (set_fov_rad m x st = (Raised (ValueError "Invalid camera mode"), st)
     <-> get_fov_rad m st = (Raised (AttributeError "fov_rad"), st))
  /\ (set_box_height m x st = (Raised (ValueError "Invalid camera mode"), st)
     <-> get_box_height m st = (Raised (AttributeError "box_height"), st))
  /\ (set_focal_length m x st = (Raised (ValueError "Invalid camera mode"), st)
     <-> get_focal_length m st = (Raised (AttributeError "focal_length"), st)).
Proof.
  destruct m; cbn; unfold raise, gets, ret;
    repeat match goal with
    | |- _ /\ _ => split
    | |- _ <-> _ => split; intros Hyp
    | Hyp : exists _, _ |- _ => destruct Hyp as [? Hyp]
    | Hyp : (_, _) = (_, _) |- _ => discriminate Hyp
    | |- exists _, _ => eexists; reflexivity
    | |- _ = _ => reflexivity
    end.
Qed.

End MutatorChains.

(** ** What the projection call leaves alone *)

Section ProjectionFrame.
Context {num : Type} `{Arith num} `{Trig num}.

Lemma CameraMode_eqb_eq (a b : CameraMode) : CameraMode_eqb a b = true <-> a = b.
Proof. destruct a, b; cbn; split; intros E; (reflexivity || discriminate). Qed.

Lemma mode_cases (self : Camera num) :
  mode (settings self) = PERSPECTIVE \/ mode (settings self) <> PERSPECTIVE.
Proof.
  destruct (mode (settings self));
    [left; reflexivity | right; discriminate | right; discriminate].
Qed.

(** The camera a call returns is a fixed point of the call. *)
Lemma compute_projection_matrix_fixed
    (self self1 : Camera num) (st st1 : Members num) :
  compute_projection_matrix self st = (Returned self1, st1) ->
  compute_projection_matrix self1 st = (Returned self1, st).
Proof.
  destruct (mode_cases self) as [Hm | Hm].
  - rewrite (compute_projection_matrix_PERSPECTIVE self st Hm).
    intros E. injection E as <- _.
    rewrite compute_projection_matrix_PERSPECTIVE by exact Hm. reflexivity.
  - rewrite (compute_projection_matrix_other self st Hm).
    intros E. injection E as <- _.
    apply compute_projection_matrix_other. exact Hm.
Qed.

Lemma compute_projection_matrix_returns (self : Camera num) (st : Members num) :
  exists self' : Camera num,
    compute_projection_matrix self st = (Returned self', st).
Proof.
  destruct (mode_cases self) as [Hm | Hm]; eexists;
    [apply compute_projection_matrix_PERSPECTIVE | apply compute_projection_matrix_other];
    exact Hm.
Qed.

(** X7. For a camera of any mode the call returns: the guarded read of
    [fov_rad] never raises [AttributeError].  It writes nothing but the
    [projection_matrix] slot: the settings, the [view_matrix] slot and the
    mode parameters are as before. *)
Theorem compute_projection_matrix_frame (self : Camera num) (st : Members num) :
  exists self' : Camera num,
    compute_projection_matrix self st = (Returned self', st)
    /\ settings self' = settings self
    /\ view_matrix self' = view_matrix self.
Proof.
  destruct (mode_cases self) as [Hm | Hm].
  - eexists. split; [apply compute_projection_matrix_PERSPECTIVE; exact Hm|].
    split; reflexivity.
  - exists self. split; [apply compute_projection_matrix_other; exact Hm|].
    split; reflexivity.
Qed.

(** X8. The first call on a PERSPECTIVE camera reads [near_plane],
    [far_plane], [aspect_ratio] and the mode parameter and nothing else of
    the settings: two freshly constructed cameras whose settings agree on
    these three end with equal [projection_matrix] slots, whatever their
    shutter speed, aperture, ISO, sensor size and focus distance are. *)
Theorem first_projection_ignores_exposure_settings
    (s1 s2 : CameraSettings num) (st : Members num) :
  mode s1 = PERSPECTIVE ->
  mode s2 = PERSPECTIVE ->
  near_plane s1 = near_plane s2 ->
  far_plane s1 = far_plane s2 ->
  aspect_ratio s1 = aspect_ratio s2 ->
  exists c1' c2' : Camera num,
    compute_projection_matrix (Camera_init s1) st = (Returned c1', st)
    /\ compute_projection_matrix (Camera_init s2) st = (Returned c2', st)
    /\ projection_matrix c1' = projection_matrix c2'.
Proof.
  intros Hm1 Hm2 Hn Hf Ha.
  eexists. eexists.
  split; [apply compute_projection_matrix_PERSPECTIVE; exact Hm1|].
  split; [apply compute_projection_matrix_PERSPECTIVE; exact Hm2|].
  cbn. rewrite Hn, Hf, Ha. reflexivity.
Qed.

(** X16. The parameters of the two other members do not enter the call:
    after [set_box_height] or [set_focal_length] on their own members the
    call returns the same camera as before the write, for a camera of any
    mode. *)
Theorem compute_projection_matrix_ignores_other_parameters
    (self : Camera num) (x : num) (st : Members num) :
  fst (compute_projection_matrix self (snd (set_box_height ORTHOGRAPHIC x st)))
    = fst (compute_projection_matrix self st)
  /\ fst (compute_projection_matrix self (snd (set_focal_length PHYSICAL x st)))
    = fst (compute_projection_matrix self st).
Proof.
  destruct (mode_cases self) as [Hm | Hm].
  - rewrite !compute_projection_matrix_PERSPECTIVE by exact Hm.
    split; reflexivity.
  - rewrite !compute_projection_matrix_other by exact Hm.
    split; reflexivity.
Qed.

(** X9. Any number of calls in a row, at least one, with the settings and
    the mode parameters unchanged, leaves the camera as a single call
    does. *)
Theorem compute_projection_matrix_times_one
    (n : nat) (self : Camera num) (st : Members num) :
  compute_projection_matrix_times (S n) self st = compute_projection_matrix self st.
Proof.
  revert self. induction n as [| n IH]; intros self.
  - destruct (compute_projection_matrix_returns self st) as (self' & E).
    cbn. unfold bind. rewrite E. reflexivity.
  - destruct (compute_projection_matrix_returns self st) as (self' & E).
    change (compute_projection_matrix_times (S (S n)) self st)
      with (bind (compute_projection_matrix self)
                 (compute_projection_matrix_times (S n)) st).
    unfold bind at 1. rewrite E. rewrite IH.
    apply (compute_projection_matrix_fixed _ _ E).
Qed.

End ProjectionFrame.

(** ** The stored matrix in closed form *)

Section ExactProjection.
Local Open Scope R_scope.

Lemma frustum_entry_2_0 (left right bottom top near far : R) :
  entry (projection_from_frustum left right bottom top near far) 2 0
    = Some ((right + left) / (right - left)).
Proof. reflexivity. Qed.

Lemma frustum_entry_2_1 (left right bottom top near far : R) :
  entry (projection_from_frustum left right bottom top near far) 2 1
    = Some ((top + bottom) / (top - bottom)).
Proof. reflexivity. Qed.

Lemma symmetric_frustum_closed_form (r t near far : R) :
  r <> 0 -> t <> 0 -> near <> far ->
  projection_from_frustum (- r) r (- t) t near far =
    [ [near / r; 0; 0; 0];
      [0; near / t; 0; 0];
      [0; 0; near / (far - near); -1];
      [0; 0; far * near / (far - near); 0] ].
Proof.
  intros Hr Ht Hnf. unfold projection_from_frustum. cbn.
  assert (Hd : far - near <> 0) by lra.
  assert (Hrr : r - - r <> 0) by lra.
  assert (Htt : t - - t <> 0) by lra.
  replace (2 * near / (r - - r)) with (near / r) by (field; auto).
  replace (2 * near / (t - - t)) with (near / t) by (field; auto).
  replace ((r + - r) / (r - - r)) with 0 by (field; auto).
  replace ((t + - t) / (t - - t)) with 0 by (field; auto).
  replace (- (- far / (far - near)) - 1) with (near / (far - near))
    by (field; auto).
  replace (- (near * (- far / (far - near)))) with (far * near / (far - near))
    by (field; auto).
  reflexivity.
Qed.

Lemma tan_half_positive (x : R) : 0 < x < PI -> 0 < Rtrigo1.tan (x / 2).
Proof. intros Hx. apply tan_gt_0; lra. Qed.

(** X10. At the first call on a PERSPECTIVE camera with [near_plane <> 0],
    [tan (fov_rad / 2) <> 0], [aspect_ratio <> 0] and
    [near_plane <> far_plane], the stored matrix is, in exact arithmetic,
    [[1/(a*T), 0, 0, 0], [0, 1/T, 0, 0], [0, 0, n/(f-n), -1],
     [0, 0, f*n/(f-n), 0]] with [T = tan (fov_rad / 2)], [a] the aspect
    ratio, [n] and [f] the near and far planes: the two scale entries do not
    depend on the planes and there is no skew term. *)
Theorem perspective_matrix_closed_form (self : Camera R) (st : Members R) :
  kernel self = None ->
  mode (settings self) = PERSPECTIVE ->
  near_plane (settings self) <> 0 ->
  tan (fov_rad st / 2) <> 0 ->
  aspect_ratio (settings self) <> 0 ->
  near_plane (settings self) <> far_plane (settings self) ->
  exists self' : Camera R,
    compute_projection_matrix self st = (Returned self', st)
    /\ projection_matrix self' =
         [ [1 / (aspect_ratio (settings self) * tan (fov_rad st / 2)); 0; 0; 0];
           [0; 1 / tan (fov_rad st / 2); 0; 0];
           [0; 0;
            near_plane (settings self)
              / (far_plane (settings self) - near_plane (settings self));
            -1];
           [0; 0;
            far_plane (settings self) * near_plane (settings self)
              / (far_plane (settings self) - near_plane (settings self));
            0] ].
Proof.
  intros Hk Hm Hn HT Ha Hnf.
  eexists. split; [apply compute_projection_matrix_PERSPECTIVE; exact Hm|].
  rewrite (effective_kernel_first self st Hk).
  cbn in *.
  set (n := near_plane (settings self)) in *.
  set (f := far_plane (settings self)) in *.
  set (a := aspect_ratio (settings self)) in *.
  set (T := Rtrigo1.tan (fov_rad st / 2)) in *.
  assert (Ht : n * T <> 0) by (apply Rmult_integral_contrapositive_currified; assumption).
  assert (Hr : n * T * a <> 0) by (apply Rmult_integral_contrapositive_currified; assumption).
  rewrite (symmetric_frustum_closed_form Hr Ht Hnf).
  replace (n / (n * T * a)) with (1 / (a * T)) by (field; auto).
  replace (n / (n * T)) with (1 / T) by (field; auto).
  reflexivity.
Qed.

(** X11. At the first call on a PERSPECTIVE camera with
    [0 < fov_rad < pi], [0 < near_plane < far_plane] and
    [0 < aspect_ratio], the frustum handed to [projection_from_frustum]
    satisfies the invariants of that function ([left < right],
    [bottom < top], [0 < near < far]), and the entries [0][0], [1][1] and
    [2][2] of the stored matrix are strictly positive (exact arithmetic). *)
Theorem perspective_frustum_well_formed (self : Camera R) (st : Members R) :
  kernel self = None ->
  mode (settings self) = PERSPECTIVE ->
  0 < fov_rad st < PI ->
  0 < near_plane (settings self) < far_plane (settings self) ->
  0 < aspect_ratio (settings self) ->
  let t := near_plane (settings self) * tan (fov_rad st / 2) in
  let r := t * aspect_ratio (settings self) in
  - r < r /\ - t < t
  /\ exists (self' : Camera R) (m00 m11 m22 : R),
       compute_projection_matrix self st = (Returned self', st)
       /\ projection_matrix self' =
            projection_from_frustum (- r) r (- t) t
              (near_plane (settings self)) (far_plane (settings self))
       /\ entry (projection_matrix self') 0 0 = Some m00
       /\ entry (projection_matrix self') 1 1 = Some m11
       /\ entry (projection_matrix self') 2 2 = Some m22
       /\ 0 < m00 /\ 0 < m11 /\ 0 < m22.
Proof.
  intros Hk Hm Hfov Hnf Ha t r.
  assert (HT : 0 < Rtrigo1.tan (fov_rad st / 2)) by (apply tan_half_positive; exact Hfov).
  assert (Ht : 0 < t) by (apply Rmult_lt_0_compat; [lra | exact HT]).
  assert (Hr : 0 < r) by (apply Rmult_lt_0_compat; assumption).
  split; [lra|]. split; [lra|].
  exists (store_projection
            (with_kernel (effective_kernel self st) self)
            (projection_from_frustum (- r) r (- t) t
               (near_plane (settings self)) (far_plane (settings self)))),
         (2 * near_plane (settings self) / (r - - r)),
         (2 * near_plane (settings self) / (t - - t)),
         (- (- far_plane (settings self)
               / (far_plane (settings self) - near_plane (settings self))) - 1).
  split.
  { rewrite compute_projection_matrix_PERSPECTIVE by exact Hm.
    unfold run_kernel. rewrite (effective_kernel_first self st Hk). reflexivity. }
  split; [reflexivity|].
  split; [apply frustum_entry_0_0|].
  split; [apply frustum_entry_1_1|].
  split; [apply frustum_entry_2_2|].
  split; [apply ratio_positive; lra|].
  split; [apply ratio_positive; lra|].
  rewrite reversed_depth_term by lra. apply ratio_positive; lra.
Qed.

(** X12. On a freshly constructed camera, the slot still holds the zeros
    of [Camera.__init__] after the call exactly when the mode is not
    PERSPECTIVE: a computed matrix always has -1 at [2][3]. *)
Theorem fresh_camera_slot_zero_iff (s : CameraSettings R) (st : Members R) :
  exists self' : Camera R,
    compute_projection_matrix (Camera_init s) st = (Returned self', st)
    /\ (projection_matrix self' = Matrix_field_4_4 <-> mode s <> PERSPECTIVE).
Proof.
  destruct (mode s) eqn:Hm.
  - eexists.
    split; [apply compute_projection_matrix_PERSPECTIVE; exact Hm|].
    split.
    + intros E. exfalso.
      apply (f_equal (fun M => entry M 2 3)) in E.
      cbn in E. injection E as Hneg. lra.
    + intros Hne. contradiction.
  - exists (Camera_init s).
    split; [apply compute_projection_matrix_other; cbn; rewrite Hm; discriminate|].
    split; [discriminate | reflexivity].
  - exists (Camera_init s).
    split; [apply compute_projection_matrix_other; cbn; rewrite Hm; discriminate|].
    split; [discriminate | reflexivity].
Qed.

End ExactProjection.

(** ** The frustum matrix as a depth mapping *)

Section ExactFrustum.
Local Open Scope R_scope.

Lemma frustum_clip_z (left right bottom top near far x y z : R) :
  row_vector_times [x; y; z; 1]
      (projection_from_frustum left right bottom top near far) 2
    = Some (x * 0 + (y * 0
              + (z * (- (- far / (far - near)) - 1)
                 + (1 * - (near * (- far / (far - near))) + 0)))).
Proof. reflexivity. Qed.

Lemma frustum_clip_w (left right bottom top near far x y z : R) :
  row_vector_times [x; y; z; 1]
      (projection_from_frustum left right bottom top near far) 3
    = Some (x * 0 + (y * 0 + (z * -1 + (1 * 0 + 0)))).
Proof. reflexivity. Qed.

Lemma depth_ratio (near far d : R) :
  near < far -> 0 < d ->
  (0 * 0 + (0 * 0
     + (- d * (- (- far / (far - near)) - 1)
        + (1 * - (near * (- far / (far - near))) + 0))))
    / (0 * 0 + (0 * 0 + (- d * -1 + (1 * 0 + 0))))
  = near * (far - d) / ((far - near) * d).
Proof. intros Hnf Hd. field. split; lra. Qed.

(** X13. Reversed depth.  Take [0 < near < far] and any side bounds, and
    multiply the row vector [(x, y, -d, 1)] of a point at distance [d > 0]
    in front of the camera with the matrix.  Component 3 of the product is
    [d], and component 2 divided by it is [near * (far - d) / ((far - near) * d)],
    whatever [x] and [y] are: 1 on the near plane, 0 on the far plane,
    strictly between the two for [near < d < far], and strictly decreasing
    in [d] (exact arithmetic). *)
Theorem frustum_depth_is_reversed
    (left right bottom top near far x y d : R) :
  0 < near -> near < far -> 0 < d ->
  let M := projection_from_frustum left right bottom top near far in
  exists cz cw : R,
    row_vector_times [x; y; - d; 1] M 2 = Some cz
    /\ row_vector_times [x; y; - d; 1] M 3 = Some cw
    /\ cw = d
    /\ cz / cw = near * (far - d) / ((far - near) * d)
    /\ (d = near -> cz / cw = 1)
    /\ (d = far -> cz / cw = 0)
    /\ (near < d < far -> 0 < cz / cw < 1)
    /\ (forall d' : R, d < d' ->
          near * (far - d') / ((far - near) * d') < cz / cw).
Proof.
  intros Hn Hnf Hd M.
  eexists. eexists.
  split; [apply frustum_clip_z|].
  split; [apply frustum_clip_w|].
  split; [ring|].
  assert (E : (x * 0 + (y * 0
                 + (- d * (- (- far / (far - near)) - 1)
                    + (1 * - (near * (- far / (far - near))) + 0))))
              / (x * 0 + (y * 0 + (- d * -1 + (1 * 0 + 0))))
              = near * (far - d) / ((far - near) * d)).
  { rewrite <- (depth_ratio Hnf Hd). f_equal; ring. }
  rewrite E.
  assert (Hden : 0 < (far - near) * d) by (apply Rmult_lt_0_compat; lra).
  split; [reflexivity|].
  split; [intros ->; field; lra|].
  split; [intros ->; field; lra|].
  split.
  - intros [Hlo Hhi]. split.
    + apply ratio_positive; [apply Rmult_lt_0_compat; lra | exact Hden].
    + apply ratio_below_one; [exact Hden|]. nra.
  - intros d' Hdd.
    assert (Hd' : 0 < d') by lra.
    assert (Hden' : 0 < (far - near) * d') by (apply Rmult_lt_0_compat; lra).
    apply (Rmult_lt_reg_r ((far - near) * d * d')).
    + apply Rmult_lt_0_compat; [exact Hden | exact Hd'].
    + replace (near * (far - d') / ((far - near) * d') * ((far - near) * d * d'))
        with (near * (far - d') * d) by (field; split; lra).
      replace (near * (far - d) / ((far - near) * d) * ((far - near) * d * d'))
        with (near * (far - d) * d') by (field; split; lra).
      assert (Hp : 0 < near * far) by (apply Rmult_lt_0_compat; lra).
      assert (Hs : near * far * d < near * far * d')
        by (apply Rmult_lt_compat_l; [exact Hp | exact Hdd]).
      lra.
Qed.

(** X14. The skew entries [2][0] and [2][1] vanish exactly for a frustum
    that is symmetric about the axis: for [right <> left], entry [2][0] is 0
    iff [left = - right], and for [top <> bottom], entry [2][1] is 0 iff
    [bottom = - top] (exact arithmetic). *)
Theorem frustum_skew_zero_iff_symmetric (left right bottom top near far : R) :
  right <> left -> top <> bottom ->
  let M := projection_from_frustum left right bottom top near far in
  (entry M 2 0 = Some 0 <-> left = - right)
  /\ (entry M 2 1 = Some 0 <-> bottom = - top).
Proof.
  intros Hlr Hbt M. unfold M.
  rewrite frustum_entry_2_0, frustum_entry_2_1.
  assert (Hw : right - left <> 0) by lra.
  assert (Hh : top - bottom <> 0) by lra.
  split; split.
  - intros E. injection E as E.
    apply (f_equal (fun q => q * (right - left))) in E.
    unfold Rdiv in E. rewrite Rmult_assoc, Rinv_l, Rmult_1_r, Rmult_0_l in E by exact Hw.
    lra.
  - intros ->. f_equal. field. lra.
  - intros E. injection E as E.
    apply (f_equal (fun q => q * (top - bottom))) in E.
    unfold Rdiv in E. rewrite Rmult_assoc, Rinv_l, Rmult_1_r, Rmult_0_l in E by exact Hh.
    lra.
  - intros ->. f_equal. field. lra.
Qed.

Lemma scaled_difference_nonzero (k a b : R) :
  k <> 0 -> a - b <> 0 -> k * a - k * b <> 0.
Proof.
  intros Hk Hab. replace (k * a - k * b) with (k * (a - b)) by ring.
  apply Rmult_integral_contrapositive_currified; assumption.
Qed.

(** X15. Change of unit.  Multiplying all six bounds by the same [k <> 0]
    leaves every entry of the matrix as it is, except entry [3][2], which is
    multiplied by [k] (for [right <> left], [top <> bottom], [far <> near];
    exact arithmetic). *)
Theorem frustum_scaling (k left right bottom top near far : R) :
  k <> 0 -> right <> left -> top <> bottom -> far <> near ->
  let M := projection_from_frustum left right bottom top near far in
  let Mk := projection_from_frustum
              (k * left) (k * right) (k * bottom) (k * top) (k * near) (k * far) in
  (forall i j : nat, (i, j) <> (3%nat, 2%nat) -> entry Mk i j = entry M i j)
  /\ exists m : R, entry M 3 2 = Some m /\ entry Mk 3 2 = Some (k * m).
Proof.
  intros Hk Hlr Hbt Hfn M Mk.
  assert (Hw : right - left <> 0) by lra.
  assert (Hh : top - bottom <> 0) by lra.
  assert (Hd : far - near <> 0) by lra.
  split.
  - intros i j Hij.
    destruct i as [|[|[|[|i]]]]; destruct j as [|[|[|[|j]]]];
      try reflexivity;
      try (destruct j; reflexivity);
      try (exfalso; apply Hij; reflexivity);
      unfold Mk, M, projection_from_frustum, entry; cbn;
      f_equal; field;
      (split; [assumption | apply scaled_difference_nonzero; assumption]).
  - eexists. split; [apply frustum_entry_3_2|].
    unfold Mk. rewrite frustum_entry_3_2. f_equal. field.
    split; [assumption | apply scaled_difference_nonzero; assumption].
Qed.

End ExactFrustum.

(** ** The frustum matrix on the sides of the frustum *)

Section ExactSides.
Local Open Scope R_scope.

Lemma frustum_clip_x (left right bottom top near far x y z : R) :
  row_vector_times [x; y; z; 1]
      (projection_from_frustum left right bottom top near far) 0
    = Some (x * (2 * near / (right - left))
            + (y * 0 + (z * ((right + left) / (right - left)) + (1 * 0 + 0)))).
Proof. reflexivity. Qed.

Lemma frustum_clip_y (left right bottom top near far x y z : R) :
  row_vector_times [x; y; z; 1]
      (projection_from_frustum left right bottom top near far) 1
    = Some (x * 0
            + (y * (2 * near / (top - bottom))
               + (z * ((top + bottom) / (top - bottom)) + (1 * 0 + 0)))).
Proof. reflexivity. Qed.

Lemma affine_between (lo hi u : R) :
  lo < hi -> lo < u < hi -> -1 < (2 * u - (hi + lo)) / (hi - lo) < 1.
Proof.
  intros Hlh [Hlo Hhi].
  assert (Hw : 0 < hi - lo) by lra.
  split.
  - apply (Rmult_lt_reg_r (hi - lo)); [exact Hw|].
    unfold Rdiv. rewrite Rmult_assoc, Rinv_l, Rmult_1_r by lra. lra.
  - apply (Rmult_lt_reg_r (hi - lo)); [exact Hw|].
    unfold Rdiv. rewrite Rmult_assoc, Rinv_l, Rmult_1_r by lra. lra.
Qed.

(** X17. The sides of the frustum go to the sides of the unit square.
    For [left < right], [bottom < top], [0 < near] and a point
    [(x, y, -d)] at distance [d > 0], let [u = near * x / d] and
    [v = near * y / d] be the point projected onto the near plane.
    Components 0 and 1 of the row vector [(x, y, -d, 1)] times the matrix,
    divided by component 3, are [(2u - (right + left)) / (right - left)]
    and [(2v - (top + bottom)) / (top - bottom)]: -1 at [u = left],
    1 at [u = right], strictly between for [left < u < right], and the
    same for [v] between [bottom] and [top] (exact arithmetic). *)
Theorem frustum_sides_to_unit_square
    (left right bottom top near far x y d : R) :
  left < right -> bottom < top -> 0 < near -> 0 < d ->
  let M := projection_from_frustum left right bottom top near far in
  let u := near * x / d in
  let v := near * y / d in
  exists cx cy cw : R,
    row_vector_times [x; y; - d; 1] M 0 = Some cx
    /\ row_vector_times [x; y; - d; 1] M 1 = Some cy
    /\ row_vector_times [x; y; - d; 1] M 3 = Some cw
    /\ cx / cw = (2 * u - (right + left)) / (right - left)
    /\ cy / cw = (2 * v - (top + bottom)) / (top - bottom)
    /\ (u = left -> cx / cw = -1) /\ (u = right -> cx / cw = 1)
    /\ (v = bottom -> cy / cw = -1) /\ (v = top -> cy / cw = 1)
    /\ (left < u < right -> -1 < cx / cw < 1)
    /\ (bottom < v < top -> -1 < cy / cw < 1).
Proof.
  intros Hlr Hbt Hn Hd M u v.
  eexists. eexists. eexists.
  split; [apply frustum_clip_x|].
  split; [apply frustum_clip_y|].
  split; [apply frustum_clip_w|].
  assert (Ex : (x * (2 * near / (right - left))
                + (y * 0 + (- d * ((right + left) / (right - left)) + (1 * 0 + 0))))
               / (x * 0 + (y * 0 + (- d * -1 + (1 * 0 + 0))))
               = (2 * u - (right + left)) / (right - left))
    by (unfold u; field; split; lra).
  assert (Ey : (x * 0
                + (y * (2 * near / (top - bottom))
                   + (- d * ((top + bottom) / (top - bottom)) + (1 * 0 + 0))))
               / (x * 0 + (y * 0 + (- d * -1 + (1 * 0 + 0))))
               = (2 * v - (top + bottom)) / (top - bottom))
    by (unfold v; field; split; lra).
  rewrite Ex, Ey.
  split; [reflexivity|]. split; [reflexivity|].
  split; [intros ->; field; lra|].
  split; [intros ->; field; lra|].
  split; [intros ->; field; lra|].
  split; [intros ->; field; lra|].
  split; apply affine_between; assumption.
Qed.

(** X18. What [fov_rad] and [aspect_ratio] mean.  At the first call on a
    PERSPECTIVE camera with [0 < fov_rad < pi], [0 < near_plane],
    [near_plane <> far_plane] and [0 < aspect_ratio], the stored matrix is
    such that a point at distance [d > 0] whose height is
    [d * tan (fov_rad / 2)] lands on the top edge (component 1 over
    component 3 of the row-vector product with the stored matrix is 1), and
    a point whose offset to the right is [d * tan (fov_rad / 2) * aspect_ratio]
    lands on the right edge (exact arithmetic). *)
Theorem perspective_field_of_view_edges (self : Camera R) (st : Members R) (d : R) :
  kernel self = None ->
  mode (settings self) = PERSPECTIVE ->
  0 < fov_rad st < PI ->
  0 < near_plane (settings self) ->
  near_plane (settings self) <> far_plane (settings self) ->
  0 < aspect_ratio (settings self) ->
  0 < d ->
  let T := tan (fov_rad st / 2) in
  let a := aspect_ratio (settings self) in
  exists (self' : Camera R) (cx cy cw : R),
    compute_projection_matrix self st = (Returned self', st)
    /\ row_vector_times [d * T * a; d * T; - d; 1] (projection_matrix self') 0 = Some cx
    /\ row_vector_times [d * T * a; d * T; - d; 1] (projection_matrix self') 1 = Some cy
    /\ row_vector_times [d * T * a; d * T; - d; 1] (projection_matrix self') 3 = Some cw
    /\ cx / cw = 1
    /\ cy / cw = 1.
Proof.
  intros Hk Hm Hfov Hn Hnf Ha Hd T a.
  assert (HT : 0 < T) by (apply tan_half_positive; exact Hfov).
  assert (HT0 : tan (fov_rad st / 2) <> 0) by (fold T; lra).
  assert (Hn0 : near_plane (settings self) <> 0) by lra.
  assert (Ha0 : aspect_ratio (settings self) <> 0) by lra.
  destruct (mode_cases self) as [_ | Hne]; [|contradiction].
  eexists. eexists. eexists. eexists.
  split; [apply compute_projection_matrix_PERSPECTIVE; exact Hm|].
  rewrite (effective_kernel_first self st Hk).
  unfold run_kernel.
  cbn [projection_matrix store_projection kernel_near_plane kernel_far_plane
       kernel_aspect_ratio kernel_fov_rad].
  change (@tan R R_Trig) with Rtrigo1.tan in *.
  cbn [of_int add sub mul div neg R_Arith] in *.
  assert (Ht : near_plane (settings self) * Rtrigo1.tan (fov_rad st / 2) <> 0)
    by (apply Rmult_integral_contrapositive_currified; assumption).
  assert (Hr : near_plane (settings self) * Rtrigo1.tan (fov_rad st / 2)
               * aspect_ratio (settings self) <> 0)
    by (apply Rmult_integral_contrapositive_currified; assumption).
  rewrite (symmetric_frustum_closed_form Hr Ht Hnf).
  split; [reflexivity|]. split; [reflexivity|]. split; [reflexivity|].
  fold T. fold a.
  split; field; repeat split; (assumption || lra).
Qed.

End ExactSides.

(** ** Instances of the conditional statements above *)

Section FurtherInstances.
Local Open Scope R_scope.

Lemma first_projection_ignores_exposure_settings_witness :
  let s1 := default_settings in
  let s2 := mkCameraSettings PERSPECTIVE (1/10) 10000 1 8 200 (1, 1) 9 1 in
  (mode s1 = PERSPECTIVE
   /\ mode s2 = PERSPECTIVE
   /\ near_plane s1 = near_plane s2
   /\ far_plane s1 = far_plane s2
   /\ aspect_ratio s1 = aspect_ratio s2)
  /\ exists c1' c2' : Camera R,
       compute_projection_matrix (Camera_init s1) CameraMode_members
         = (Returned c1', CameraMode_members)
       /\ compute_projection_matrix (Camera_init s2) CameraMode_members
         = (Returned c2', CameraMode_members)
       /\ projection_matrix c1' = projection_matrix c2'.
Proof.
  intros s1 s2.
  split; [repeat split|].
  apply (@first_projection_ignores_exposure_settings R _ _ s1 s2 CameraMode_members);
    reflexivity.
Defined.

Lemma scenario_tan_nonzero : tan (fov_rad scenario_members / 2) <> 0.
Proof.
  cbn. rewrite tan_half_right_angle. lra.
Qed.

Lemma perspective_matrix_closed_form_witness :
  let self := Camera_init scenario_settings in
  let st := scenario_members in
  (kernel self = None
   /\ mode (settings self) = PERSPECTIVE
   /\ near_plane (settings self) <> 0
   /\ tan (fov_rad st / 2) <> 0
   /\ aspect_ratio (settings self) <> 0
   /\ near_plane (settings self) <> far_plane (settings self))
  /\ exists self' : Camera R,
       compute_projection_matrix self st = (Returned self', st)
       /\ projection_matrix self' =
            [ [1 / (aspect_ratio (settings self) * tan (fov_rad st / 2)); 0; 0; 0];
              [0; 1 / tan (fov_rad st / 2); 0; 0];
              [0; 0;
               near_plane (settings self)
                 / (far_plane (settings self) - near_plane (settings self));
               -1];
              [0; 0;
               far_plane (settings self) * near_plane (settings self)
                 / (far_plane (settings self) - near_plane (settings self));
               0] ].
Proof.
  intros self st.
  assert (Hn : near_plane (settings self) <> 0) by (cbn; lra).
  assert (Ha : aspect_ratio (settings self) <> 0) by (cbn; lra).
  assert (Hnf : near_plane (settings self) <> far_plane (settings self)) by (cbn; lra).
  split; [repeat split; (reflexivity || assumption || exact scenario_tan_nonzero)|].
  exact (@perspective_matrix_closed_form self st eq_refl eq_refl Hn
           scenario_tan_nonzero Ha Hnf).
Defined.

Lemma default_fov_in_range :
  0 < fov_rad (CameraMode_members (num := R)) < PI.
Proof.
  cbn. pose proof PI_RGT_0 as Hpi. lra.
Qed.

Lemma perspective_frustum_well_formed_witness :
  let self := Camera_init default_settings in
  let st := CameraMode_members (num := R) in
  (kernel self = None
   /\ mode (settings self) = PERSPECTIVE
   /\ 0 < fov_rad st < PI
   /\ 0 < near_plane (settings self) < far_plane (settings self)
   /\ 0 < aspect_ratio (settings self))
  /\ (let t := near_plane (settings self) * tan (fov_rad st / 2) in
      let r := t * aspect_ratio (settings self) in
      - r < r /\ - t < t
      /\ exists (self' : Camera R) (m00 m11 m22 : R),
           compute_projection_matrix self st = (Returned self', st)
           /\ projection_matrix self' =
                projection_from_frustum (- r) r (- t) t
                  (near_plane (settings self)) (far_plane (settings self))
           /\ entry (projection_matrix self') 0 0 = Some m00
           /\ entry (projection_matrix self') 1 1 = Some m11
           /\ entry (projection_matrix self') 2 2 = Some m22
           /\ 0 < m00 /\ 0 < m11 /\ 0 < m22).
Proof.
  intros self st.
  assert (Hnf : 0 < near_plane (settings self) < far_plane (settings self))
    by (cbn; lra).
  assert (Ha : 0 < aspect_ratio (settings self)) by (cbn; lra).
  split; [repeat split; (reflexivity || apply default_fov_in_range || apply Hnf || exact Ha)|].
  exact (@perspective_frustum_well_formed self st eq_refl eq_refl
           default_fov_in_range Hnf Ha).
Defined.

Lemma frustum_depth_is_reversed_witness :
  (0 < 1 /\ 1 < 3 /\ 0 < 2)
  /\ (let M := projection_from_frustum (-1) 1 (-1) 1 1 3 in
      exists cz cw : R,
        row_vector_times [5; 7; - 2; 1] M 2 = Some cz
        /\ row_vector_times [5; 7; - 2; 1] M 3 = Some cw
        /\ cw = 2
        /\ cz / cw = 1 * (3 - 2) / ((3 - 1) * 2)
        /\ (2 = 1 -> cz / cw = 1)
        /\ (2 = 3 -> cz / cw = 0)
        /\ (1 < 2 < 3 -> 0 < cz / cw < 1)
        /\ (forall d' : R, 2 < d' ->
              1 * (3 - d') / ((3 - 1) * d') < cz / cw)).
Proof.
  split; [lra|].
  apply (@frustum_depth_is_reversed (-1) 1 (-1) 1 1 3 5 7 2); lra.
Defined.

Lemma frustum_skew_zero_iff_symmetric_witness :
  (1 <> -1 /\ 3 <> -1)
  /\ (let M := projection_from_frustum (-1) 1 (-1) 3 1 4 in
      (entry M 2 0 = Some 0 <-> -1 = - 1)
      /\ (entry M 2 1 = Some 0 <-> -1 = - 3)).
Proof.
  split; [split; lra|].
  apply (@frustum_skew_zero_iff_symmetric (-1) 1 (-1) 3 1 4); lra.
Defined.

Lemma frustum_scaling_witness :
  (1000 <> 0 /\ 1 <> -1 /\ 1 <> -1 /\ 100 <> 1/10)
  /\ (let M := projection_from_frustum (-1) 1 (-1) 1 (1/10) 100 in
      let Mk := projection_from_frustum
                  (1000 * -1) (1000 * 1) (1000 * -1) (1000 * 1)
                  (1000 * (1/10)) (1000 * 100) in
      (forall i j : nat, (i, j) <> (3%nat, 2%nat) -> entry Mk i j = entry M i j)
      /\ exists m : R, entry M 3 2 = Some m /\ entry Mk 3 2 = Some (1000 * m)).
Proof.
  split; [repeat split; lra|].
  apply (@frustum_scaling 1000 (-1) 1 (-1) 1 (1/10) 100); lra.
Defined.

Lemma frustum_sides_to_unit_square_witness :
  (-1 < 1 /\ -1 < 1 /\ 0 < 1 /\ 0 < 2)
  /\ (let M := projection_from_frustum (-1) 1 (-1) 1 1 3 in
      let u := 1 * 2 / 2 in
      let v := 1 * 0 / 2 in
      exists cx cy cw : R,
        row_vector_times [2; 0; - 2; 1] M 0 = Some cx
        /\ row_vector_times [2; 0; - 2; 1] M 1 = Some cy
        /\ row_vector_times [2; 0; - 2; 1] M 3 = Some cw
        /\ cx / cw = (2 * u - (1 + -1)) / (1 - -1)
        /\ cy / cw = (2 * v - (1 + -1)) / (1 - -1)
        /\ (u = -1 -> cx / cw = -1) /\ (u = 1 -> cx / cw = 1)
        /\ (v = -1 -> cy / cw = -1) /\ (v = 1 -> cy / cw = 1)
        /\ (-1 < u < 1 -> -1 < cx / cw < 1)
        /\ (-1 < v < 1 -> -1 < cy / cw < 1)).
Proof.
  split; [lra|].
  apply (@frustum_sides_to_unit_square (-1) 1 (-1) 1 1 3 2 0 2); lra.
Defined.

Lemma perspective_field_of_view_edges_witness :
  let self := Camera_init default_settings in
  let st := CameraMode_members (num := R) in
  (kernel self = None
   /\ mode (settings self) = PERSPECTIVE
   /\ 0 < fov_rad st < PI
   /\ 0 < near_plane (settings self)
   /\ near_plane (settings self) <> far_plane (settings self)
   /\ 0 < aspect_ratio (settings self)
   /\ 0 < 5)
  /\ (let T := tan (fov_rad st / 2) in
      let a := aspect_ratio (settings self) in
      exists (self' : Camera R) (cx cy cw : R),
        compute_projection_matrix self st = (Returned self', st)
        /\ row_vector_times [5 * T * a; 5 * T; - 5; 1] (projection_matrix self') 0 = Some cx
        /\ row_vector_times [5 * T * a; 5 * T; - 5; 1] (projection_matrix self') 1 = Some cy
        /\ row_vector_times [5 * T * a; 5 * T; - 5; 1] (projection_matrix self') 3 = Some cw
        /\ cx / cw = 1
        /\ cy / cw = 1).
Proof.
  intros self st.
  assert (Hn : 0 < near_plane (settings self)) by (cbn; lra).
  assert (Hnf : near_plane (settings self) <> far_plane (settings self)) by (cbn; lra).
  assert (Ha : 0 < aspect_ratio (settings self)) by (cbn; lra).
  assert (Hd : 0 < 5) by lra.
  split; [repeat split;
          (reflexivity || apply default_fov_in_range || assumption)|].
  exact (@perspective_field_of_view_edges self st 5 eq_refl eq_refl
           default_fov_in_range Hn Hnf Ha Hd).
Defined.

End FurtherInstances.
